(** * picofp: the [Maybe] and [Result] containers

    A shallow embedding of [src/Maybe.ts], [src/Result.ts] and
    [src/index.ts].

    The TypeScript classes are generic, so the containers are polymorphic
    inductive types, one constructor per concrete subclass; a virtual
    method is a function that matches on the receiver.  Two things the
    library takes from the host are kept behind type classes: the strict
    equality operator [===] used by [contains], and the [toString()]
    method that [Err.unwrap] calls on the error payload.

    Callbacks handed to [map], [flatMap], [match] and the like are
    arbitrary JavaScript functions: they may have side effects and they may
    throw.  They are therefore modelled as computations in a small monad
    that threads a world state and carries thrown exceptions, which is what
    makes "the callback is not invoked" a statement one can prove. *)

From Stdlib Require Import String Bool Arith ZArith List Floats.
Import ListNotations.
Local Open Scope string_scope.

(** ** Host: exceptions, computations, strict equality, [toString] *)

Module Host.

(** Values thrown by the code under study.  [new Error(msg)] carries its
    message.  A [TypeError] is what the host raises on a property access
    through [null] or [undefined]; ECMAScript leaves its message to the
    implementation, so none is recorded. *)
Inductive Exception : Type :=
| Error (message : string)
| TypeError.

(** How the evaluation of a call ends. *)
Inductive Outcome (A : Type) : Type :=
| Return (a : A)
| Throw (e : Exception).
Arguments Return {A} a.
Arguments Throw {A} e.

(** A computation over a world [W]: the world is threaded through the call
    and is kept when the call throws. *)
Definition Comp (W A : Type) : Type := W -> Outcome A * W.

Definition ret {W A} (a : A) : Comp W A := fun w => (Return a, w).

Definition throw {W A} (e : Exception) : Comp W A := fun w => (Throw e, w).

Definition bind {W A B} (c : Comp W A) (k : A -> Comp W B) : Comp W B :=
  fun w =>
    match c w with
    | (Return a, w') => k a w'
    | (Throw e, w') => (Throw e, w')
    end.

(** The value a function yields when control runs off its end. *)
Inductive OrUndefined (R : Type) : Type :=
| Defined (r : R)
| Undefined.
Arguments Defined {R} r.
Arguments Undefined {R}.

(** The operator [===] at a payload type. *)
Class StrictEq (A : Type) : Type := strict_eq : A -> A -> bool.

(** The method call [x.toString()] at a payload type.  It is host or user
    code, so it is a computation: it may throw, and it does when [x] is
    [null] or [undefined]. *)
Class ToString (W A : Type) : Type := toString : A -> Comp W string.

(** *** Instances for the primitive types *)

#[export] Instance string_StrictEq : StrictEq string := String.eqb.

#[export] Instance boolean_StrictEq : StrictEq bool := Bool.eqb.

(** A JavaScript number is an IEEE 754 double; [===] on two numbers is the
    IEEE comparison, under which [NaN] differs from itself. *)
#[export] Instance number_StrictEq : StrictEq float := PrimFloat.eqb.

#[export] Instance string_ToString {W} : ToString W string := fun s => ret s.

#[export] Instance boolean_ToString {W} : ToString W bool :=
  fun b => ret (if b then "true" else "false").

(** The type [A | null]. *)
Inductive Nullable (A : Type) : Type :=
| NotNull (a : A)
| Null.
Arguments NotNull {A} a.
Arguments Null {A}.

#[export] Instance Nullable_StrictEq {A} `{StrictEq A} : StrictEq (Nullable A) :=
  fun x y =>
    match x, y with
    | NotNull a, NotNull b => strict_eq a b
    | Null, Null => true
    | _, _ => false
    end.

#[export] Instance Nullable_ToString {W A} `{ToString W A} : ToString W (Nullable A) :=
  fun x =>
    match x with
    | NotNull a => toString a
    | Null => throw TypeError
    end.

(** *** Untyped values

    The runtime universe, for payloads of type [any]: primitives are
    compared by content, objects by identity. *)
Inductive JsValue : Type :=
| JsUndefined
| JsNull
| JsBoolean (b : bool)
| JsNumber (x : float)
| JsString (s : string)
| JsObject (ref : nat).

Definition js_strict_eq (x y : JsValue) : bool :=
  match x, y with
  | JsUndefined, JsUndefined => true
  | JsNull, JsNull => true
  | JsBoolean a, JsBoolean b => Bool.eqb a b
  | JsNumber a, JsNumber b => PrimFloat.eqb a b
  | JsString a, JsString b => String.eqb a b
  | JsObject a, JsObject b => Nat.eqb a b
  | _, _ => false
  end.

#[export] Instance JsValue_StrictEq : StrictEq JsValue := js_strict_eq.

(** The object store: the object at reference [ref] is the [ref]-th entry,
    given by its own properties in order. *)
Definition Heap : Type := list (list (string * JsValue)).

Fixpoint props_equal (eqv : JsValue -> JsValue -> bool)
  (p q : list (string * JsValue)) : bool :=
  match p, q with
  | [], [] => true
  | (k1, v1) :: p', (k2, v2) :: q' =>
      String.eqb k1 k2 && eqv v1 v2 && props_equal eqv p' q'
  | _, _ => false
  end.

(** Structural comparison, the way a deep-equality test compares two
    values: objects by their properties, to the given depth.  [contains]
    does not compare this way; the definition only serves to say so. *)
Fixpoint structurally_equal (depth : nat) (h : Heap) (x y : JsValue) : bool :=
  match x, y with
  | JsObject a, JsObject b =>
      match depth with
      | 0 => false
      | S d => props_equal (structurally_equal d h) (nth a h []) (nth b h [])
      end
  | _, _ => js_strict_eq x y
  end.

(** *** Call-counting stubs

    A stub wraps a pure function and counts its invocations in the world. *)
Definition counting {A B} (f : A -> B) : A -> Comp nat B :=
  fun a calls => (Return (f a), S calls).

(** An exception [x] carries the text [s] when it is an [Error] whose
    message has [s] as a substring. *)
Definition carries (x : Exception) (s : string) : Prop :=
  match x with
  | Error message => exists pre post, message = pre ++ s ++ post
  | TypeError => False
  end.

End Host.
Export Host.

Declare Scope comp_scope.
Delimit Scope comp_scope with comp.
Notation "x <- c ;; k" := (bind c (fun x => k))
  (at level 61, c at next level, right associativity) : comp_scope.
Local Open Scope comp_scope.

(** ** [src/Maybe.ts] *)

Module Maybe.

Inductive Maybe (T : Type) : Type :=
| Some (value : T)
| None.
Arguments Some {T} value.
Arguments None {T}.

(** [interface MaybeMatcher<T,U,V>], with fields [Some] and [None]; the
    result type [R] stands for the union [U | V]. *)
Record MaybeMatcher (W T R : Type) : Type := {
  matcher_Some : T -> Comp W R;
  matcher_None : unit -> Comp W R
}.
Arguments matcher_Some {W T R} _ _.
Arguments matcher_None {W T R} _ _.

Section Methods.
Context {W T : Type}.

(** [readonly __tag], initialised by each subclass. *)
Definition __tag (this : Maybe T) : string :=
  match this with
  | Some _ => "Some"
  | None => "None"
  end.

Definition isSome (this : Maybe T) : bool := String.eqb (__tag this) "Some".

Definition isNone (this : Maybe T) : bool := negb (isSome this).

(** [this.value], available where the guard [this is Some<T>] holds. *)
Definition value (this : Maybe T) : isSome this = true -> T :=
  match this with
  | Some v => fun _ => v
  | None => fun guard => False_rect T (diff_false_true guard)
  end.

Definition match_ {R} (this : Maybe T) (matcher : MaybeMatcher W T R) : Comp W R :=
  (if isSome this as b return isSome this = b -> Comp W R
   then fun guard => matcher_Some matcher (value this guard)
   else fun _ => matcher_None matcher tt) eq_refl.

Definition contains `{StrictEq T} (this : Maybe T) (x : T) : bool :=
  match this with
  | Some value => strict_eq value x
  | None => false
  end.

Definition unwrap (this : Maybe T) : Comp W T :=
  match this with
  | Some value => ret value
  | None => throw (Error "Unwrap called on None value")
  end.

Definition unwrapOr (this : Maybe T) (def : T) : T :=
  match this with
  | Some value => value
  | None => def
  end.

Definition map {U} (this : Maybe T) (fn : T -> Comp W U) : Comp W (Maybe U) :=
  match this with
  | Some value => u <- fn value ;; ret (Some u)
  | None => ret None
  end.

Definition mapOr {U} (this : Maybe T) (fn : T -> Comp W U) (def : U)
  : Comp W (Maybe U) :=
  match this with
  | Some value => u <- fn value ;; ret (Some u)
  | None => ret (Some def)
  end.

Definition flatMap {U} (this : Maybe T) (fn : T -> Comp W (Maybe U))
  : Comp W (Maybe U) :=
  match this with
  | Some value => fn value
  | None => ret None
  end.

End Methods.

End Maybe.
Import Maybe.

(** ** [src/Result.ts] *)

Module Result.

Inductive Result (T E : Type) : Type :=
| Ok (value : T)
| Err (error : E).
Arguments Ok {T E} value.
Arguments Err {T E} error.

(** [interface ResultMatcher<T,U,E,F>], with fields [Ok] and [Err]; the
    result type [R] stands for the union [U | F]. *)
Record ResultMatcher (W T E R : Type) : Type := {
  matcher_Ok : T -> Comp W R;
  matcher_Err : E -> Comp W R
}.
Arguments matcher_Ok {W T E R} _ _.
Arguments matcher_Err {W T E R} _ _.

Section Methods.
Context {W T E : Type}.

Definition __tag (this : Result T E) : string :=
  match this with
  | Ok _ => "Ok"
  | Err _ => "Err"
  end.

Definition isOk (this : Result T E) : bool := String.eqb (__tag this) "Ok".

Definition isErr (this : Result T E) : bool := negb (isOk this).

(** [this.value], available where the guard [this is Ok<T,E>] holds. *)
Definition value (this : Result T E) : isOk this = true -> T :=
  match this with
  | Ok v => fun _ => v
  | Err _ => fun guard => False_rect T (diff_false_true guard)
  end.

(** [this.error], available where the guard [this is Err<T,E>] holds. *)
Definition error (this : Result T E) : isErr this = true -> E :=
  match this with
  | Ok _ => fun guard => False_rect E (diff_false_true guard)
  | Err e => fun _ => e
  end.

(** [match] has an [if], an [else if] and no final [else]: when neither
    test holds, control runs off the end and the call yields [undefined]. *)
Definition match_ {R} (this : Result T E) (matcher : ResultMatcher W T E R)
  : Comp W (OrUndefined R) :=
  (if isOk this as b return isOk this = b -> Comp W (OrUndefined R)
   then fun guard => r <- matcher_Ok matcher (value this guard) ;; ret (Defined r)
   else fun _ =>
     (if isErr this as b return isErr this = b -> Comp W (OrUndefined R)
      then fun guard =>
        r <- matcher_Err matcher (error this guard) ;; ret (Defined r)
      else fun _ => ret Undefined) eq_refl) eq_refl.

(** The abstract method takes a [T | E]; [Ok] overrides it at [T] and [Err]
    at [E].  The candidate has the type of the override that the call
    dispatches to. *)
Definition channel (this : Result T E) : Type :=
  match this with
  | Ok _ => T
  | Err _ => E
  end.

Definition contains `{StrictEq T} `{StrictEq E} (this : Result T E)
  : channel this -> bool :=
  match this with
  | Ok value => fun x => strict_eq value x
  | Err error => fun x => strict_eq error x
  end.

Definition ok (this : Result T E) : Maybe T :=
  match this with
  | Ok value => Some value
  | Err _ => None
  end.

Definition err (this : Result T E) : Maybe E :=
  match this with
  | Ok _ => None
  | Err error => Some error
  end.

Definition unwrap `{ToString W E} (this : Result T E) : Comp W T :=
  match this with
  | Ok value => ret value
  | Err error => message <- toString error ;; throw (Error message)
  end.

Definition unwrapOr (this : Result T E) (def : T) : T :=
  match this with
  | Ok value => value
  | Err _ => def
  end.

Definition map {U} (this : Result T E) (fn : T -> Comp W U)
  : Comp W (Result U E) :=
  match this with
  | Ok value => u <- fn value ;; ret (Ok u)
  | Err error => ret (Err error)
  end.

Definition mapOr {U} (this : Result T E) (fn : T -> Comp W U) (def : U)
  : Comp W (Result U E) :=
  match this with
  | Ok value => u <- fn value ;; ret (Ok u)
  | Err _ => ret (Ok def)
  end.

Definition mapErr {U} (this : Result T E) (fn : E -> Comp W U)
  : Comp W (Result T U) :=
  match this with
  | Ok value => ret (Ok value)
  | Err error => u <- fn error ;; ret (Err u)
  end.

Definition flatMap {U} (this : Result T E) (fn : T -> Comp W (Result U E))
  : Comp W (Result U E) :=
  match this with
  | Ok value => fn value
  | Err error => ret (Err error)
  end.

(** A chain [this.map(f1).map(f2)...] of [map] calls. *)
Definition map_chain (this : Result T E) (fns : list (T -> Comp W T))
  : Comp W (Result T E) :=
  fold_left (fun acc fn => r <- acc ;; map r fn) fns (ret this).

End Methods.

End Result.
Import Result.

(** ** [src/index.ts] *)

Module Index.

(** Modelled from the spec: the free helper [some], which [index.ts]
    imports from [./Maybe] and the tests call, is not defined in the
    [Maybe.ts] at hand.  "A free helper producing Present from a given
    value". *)
Definition some {T} (value : T) : Maybe T := Some value.

(** Modelled from the spec: the free helper [none], likewise absent.  "A
    free helper producing Absent with no argument". *)
Definition none {T} : Maybe T := None.

(** Modelled from the spec: the free helper [ok], imported by [index.ts]
    from [./Result] and absent from the [Result.ts] at hand; the Result
    family has "the same shape" as the Maybe family. *)
Definition ok {T E} (value : T) : Result T E := Ok value.

(** Modelled from the spec: the free helper [err], likewise absent. *)
Definition err {T E} (error : E) : Result T E := Err error.

End Index.

(** ** Test doubles *)

(** Handlers that record in the world which of them ran. *)
Definition logging_MaybeMatcher {T} : MaybeMatcher (list string) T unit :=
  {| matcher_Some := fun _ log => (Return tt, "Some" :: log);
     matcher_None := fun _ log => (Return tt, "None" :: log) |}.

Definition logging_ResultMatcher {T E} : ResultMatcher (list string) T E unit :=
  {| matcher_Ok := fun _ log => (Return tt, "Ok" :: log);
     matcher_Err := fun _ log => (Return tt, "Err" :: log) |}.

(** Two objects holding the same single property. *)
Definition twin_objects : Heap :=
  [ [("a", JsNumber 1%float)]; [("a", JsNumber 1%float)] ].

(** ** Running computations *)

Lemma append_empty_r : forall s : string, s ++ "" = s.
Proof.
  induction s as [|c s IH]; simpl.
  - reflexivity.
  - now rewrite IH.
Qed.

Lemma carries_own_message : forall s : string, carries (Error s) s.
Proof.
  intros s. exists "", "". simpl. now rewrite append_empty_r.
Qed.

(** A call that returns does so whatever follows it. *)
Lemma bind_returns :
  forall {W A B} (c : Comp W A) (k : A -> Comp W B) (w w' : W) (a : A),
    c w = (Return a, w') -> bind c k w = k a w'.
Proof.
  intros W A B c k w w' a Hc. unfold bind. now rewrite Hc.
Qed.

(** ** The scenarios of the test suites *)

Example scenario_map_square :
  forall w : unit,
    (m <- Maybe.map (Some 2%float) (fun x => ret (x * x)%float) ;; Maybe.unwrap m) w
    = (Return 4%float, w).
Proof. reflexivity. Qed.

Example scenario_unwrapOr_default :
  Maybe.unwrapOr None 117%float = 117%float.
Proof. reflexivity. Qed.

Example scenario_flatMap_length :
  forall w : unit,
    (r <- Result.flatMap (E:=string) (Ok "string") (fun s => ret (Ok (String.length s))) ;;
     Result.unwrap r) w
    = (Return 6, w).
Proof. reflexivity. Qed.

Example scenario_mapOr :
  forall w : unit,
    (r <- Result.mapOr (E:=string) (Ok 4%float) (fun x => ret (x * 2)%float) 10%float ;;
     Result.unwrap r) w = (Return 8%float, w)
    /\ (r <- Result.mapOr (T:=string) (Err "e") (fun x => ret x) "foo" ;;
        Result.unwrap r) w = (Return "foo", w).
Proof. split; reflexivity. Qed.

Example scenario_unwrap_err :
  forall w : unit,
    Result.unwrap (T:=float) (Err "Unwrap called on error result") w
    = (Throw (Error "Unwrap called on error result"), w).
Proof. reflexivity. Qed.

(** A [null] error payload has no [toString] to call: the property access
    itself throws, and that is the failure [unwrap] surfaces. *)
Example scenario_unwrap_err_null :
  forall w : unit,
    Result.unwrap (T:=float) (E:=Nullable string) (Err Null) w = (Throw TypeError, w).
Proof. reflexivity. Qed.

(** ** [unwrap] *)

(** X21.  What [unwrap] does on each variant.  For every value [v],
    [Some(v).unwrap()] and [Ok(v).unwrap()] return [v].  [None().unwrap()]
    always fails, with the error "Unwrap called on None value".
    [Err(e).unwrap()] always fails: it never returns, from any world and
    for any payload.  When [e.toString()] yields the text [s], what is
    thrown is an [Error] whose message is [s] (so the message contains
    [s]), and the world is the one [toString] left; for a string payload
    the message is the payload itself. *)
Theorem unwrap_contract :
  forall (W T E : Type) (render : ToString W E) (v : T) (e : E) (w : W),
    Maybe.unwrap (Some v) w = (Return v, w)
    /\ Result.unwrap (E:=E) (Ok v) w = (Return v, w)
    /\ Maybe.unwrap (T:=T) None w = (Throw (Error "Unwrap called on None value"), w)
    /\ (exists x w', Result.unwrap (T:=T) (Err e) w = (Throw x, w'))
    /\ (forall s w',
          toString e w = (Return s, w') ->
          Result.unwrap (T:=T) (Err e) w = (Throw (Error s), w')
          /\ carries (Error s) s)
    /\ (forall s : string,
          Result.unwrap (T:=T) (Err s) w = (Throw (Error s), w)).
Proof.
  intros W T E render v e w.
  split; [reflexivity|]. split; [reflexivity|]. split; [reflexivity|].
  split; [|split].
  - unfold Result.unwrap, bind.
    destruct (toString e w) as [[s|x] w'] eqn:Hrender.
    + exists (Error s), w'. reflexivity.
    + exists x, w'. reflexivity.
  - intros s w' Hrender. split.
    + unfold Result.unwrap. now rewrite (bind_returns _ _ _ _ _ Hrender).
    + apply carries_own_message.
  - reflexivity.
Qed.

Lemma unwrap_contract_witness :
  Result.unwrap (W:=unit) (T:=float) (Err "Error") tt = (Throw (Error "Error"), tt)
  /\ carries (Error "Error") "Error".
Proof.
  destruct (unwrap_contract unit float string string_ToString 1%float "Error" tt)
    as (_ & _ & _ & _ & Hcarry & _).
  exact (Hcarry "Error" tt eq_refl).
Defined.


(** ** [mapOr] *)

(** C2.  For every default [d] and every function [f], in both families:
    [mapOr] on the empty variant returns the default wrapped as
    [Some]/[Ok], in the world it started from, whatever [f] does (so [f] is
    not invoked: a call-counting stub keeps its count); unwrapping that
    result gives [d]; and whichever variant the receiver is, a result that
    [mapOr] returns passes the [isSome]/[isOk] test. *)
Theorem mapOr_wraps_default :
  forall (W T U E : Type) (render : ToString W E)
         (f : T -> Comp W U) (d : U) (e : E) (w : W),
    Maybe.mapOr None f d w = (Return (Some d), w)
    /\ Result.mapOr (Err e) f d w = (Return (Ok d), w)
    /\ (m <- Maybe.mapOr None f d ;; Maybe.unwrap m) w = (Return d, w)
    /\ (r <- Result.mapOr (Err e) f d ;; Result.unwrap r) w = (Return d, w)
    /\ (forall (this : Maybe T) (m : Maybe U) (w' : W),
          Maybe.mapOr this f d w = (Return m, w') -> isSome m = true)
    /\ (forall (this : Result T E) (r : Result U E) (w' : W),
          Result.mapOr this f d w = (Return r, w') -> isOk r = true)
    /\ (forall (g : T -> U) (calls : nat),
          snd (Maybe.mapOr None (counting g) d calls) = calls
          /\ snd (Result.mapOr (Err e) (counting g) d calls) = calls).
Proof.
  intros W T U E render f d e w.
  repeat split; try reflexivity.
  - intros [v|] m w'; simpl; unfold bind, ret.
    + destruct (f v w) as [[u|x] w1]; intros H; inversion H; reflexivity.
    + intros H; inversion H; reflexivity.
  - intros [v|e0] r w'; simpl; unfold bind, ret.
    + destruct (f v w) as [[u|x] w1]; intros H; inversion H; reflexivity.
    + intros H; inversion H; reflexivity.
Qed.

Lemma mapOr_wraps_default_witness :
  isSome (Some 8) = true /\ isOk (Ok (E:=string) 8) = true.
Proof.
  destruct (mapOr_wraps_default unit nat nat string string_ToString
              (fun x => ret (x * 2)) 10 "e" tt)
    as (_ & _ & _ & _ & Hsome & Hok & _).
  split.
  - exact (Hsome (Some 4) (Some 8) tt eq_refl).
  - exact (Hok (Ok 4) (Ok 8) tt eq_refl).
Defined.

(** ** [map] *)

(** C3.  For every value [v] and function [f]: [Some(v).map(f)] calls [f]
    on [v] and wraps what it returns in [Some], so that
    [Some(v).map(f).unwrap()] is [f(v)], and a stub is called exactly once.
    [None().map(f)] is [None] and [f] is not invoked.  [Err(e).map(f)] is
    [Err(e)] with [f] not invoked, and so is any chain of [map] calls on
    [Err(e)]. *)
Theorem map_contract :
  forall (W T U E : Type) (f : T -> Comp W U) (v : T) (e : E) (w : W),
    Maybe.map (Some v) f w = (u <- f v ;; ret (Some u)) w
    /\ (forall (u : U) (w' : W),
          f v w = (Return u, w') -> Maybe.map (Some v) f w = (Return (Some u), w'))
    /\ (m <- Maybe.map (Some v) f ;; Maybe.unwrap m) w = f v w
    /\ Maybe.map None f w = (Return None, w)
    /\ isNone (@None U) = true
    /\ Result.map (Err e) f w = (Return (Err e), w)
    /\ (forall fns : list (T -> Comp W T),
          Result.map_chain (Err e) fns w = (Return (Err e), w))
    /\ (forall (g : T -> U) (calls : nat),
          Maybe.map (Some v) (counting g) calls = (Return (Some (g v)), S calls)
          /\ snd (Maybe.map None (counting g) calls) = calls
          /\ snd (Result.map (Err e) (counting g) calls) = calls).
Proof.
  intros W T U E f v e w.
  repeat split; try reflexivity.
  - intros u w' Hf. simpl. now rewrite (bind_returns _ _ _ _ _ Hf).
  - simpl. unfold bind, ret. destruct (f v w) as [[u|x] w']; reflexivity.
  - intros fns. unfold Result.map_chain.
    assert (Hchain : forall (acc : Comp W (Result T E)),
               acc w = (Return (Err e), w) ->
               fold_left (fun acc fn => r <- acc ;; Result.map r fn) fns acc w
               = (Return (Err e), w)).
    { induction fns as [|fn fns IH]; intros acc Hacc; simpl.
      - exact Hacc.
      - apply IH. now rewrite (bind_returns _ _ _ _ _ Hacc). }
    apply Hchain. reflexivity.
Qed.

Lemma map_contract_witness :
  Maybe.map (W:=unit) (Some 2) (fun x => ret (x * x)) tt = (Return (Some 4), tt).
Proof.
  destruct (map_contract unit nat nat string (fun x => ret (x * x)) 2 "Error" tt)
    as (_ & Hmap & _).
  exact (Hmap 4 tt eq_refl).
Defined.

(** ** [flatMap] *)

(** C4.  Left identity: for every value [v] and every function [g]
    returning a container, [Some(v).flatMap(g)] is [g(v)] itself, with no
    second wrapping, and [Ok(v).flatMap(g)] is [g(v)].  [None().flatMap(g)]
    is [None] and [Err(e).flatMap(g)] is [Err(e)], and [g] is not invoked:
    the world is untouched whatever [g] does and a stub keeps its count. *)
Theorem flatMap_left_identity :
  forall (W T U E : Type) (g : T -> Comp W (Maybe U))
         (k : T -> Comp W (Result U E)) (v : T) (e : E) (w : W),
    Maybe.flatMap (Some v) g = g v
    /\ Maybe.flatMap None g w = (Return None, w)
    /\ isNone (@None U) = true
    /\ Result.flatMap (Ok v) k = k v
    /\ Result.flatMap (Err e) k w = (Return (Err e), w)
    /\ isErr (@Err U E e) = true
    /\ (forall (h : T -> Maybe U) (j : T -> Result U E) (calls : nat),
          Maybe.flatMap (Some v) (counting h) calls = (Return (h v), S calls)
          /\ snd (Maybe.flatMap None (counting h) calls) = calls
          /\ Result.flatMap (Ok v) (counting j) calls = (Return (j v), S calls)
          /\ snd (Result.flatMap (Err e) (counting j) calls) = calls).
Proof.
  intros W T U E g k v e w.
  repeat split; reflexivity.
Qed.

(** ** [ok] and [err] *)

(** C5.  For every [v] and [e]: [Ok(v).ok()] is [Some(v)], [Ok(v).err()]
    is [None], [Err(e).ok()] is [None] and [Err(e).err()] is [Some(e)]. *)
Theorem ok_err_conversions :
  forall (T E : Type) (v : T) (e : E),
    Result.ok (E:=E) (Ok v) = Some v
    /\ Result.err (E:=E) (Ok v) = None
    /\ Result.ok (T:=T) (Err e) = None
    /\ Result.err (T:=T) (Err e) = Some e.
Proof.
  intros T E v e. repeat split; reflexivity.
Qed.

(** ** [mapErr] *)

(** C6.  For every function [f]: [Err(e).mapErr(f)] calls [f] on [e] and
    wraps what it returns in [Err], so that [Err(e).mapErr(f).err().unwrap()]
    is [f(e)].  [Ok(v).mapErr(f)] is [Ok(v)], so that
    [Ok(v).mapErr(f).unwrap()] is [v], and [f] is not invoked: the world is
    untouched whatever [f] does and a stub keeps its count. *)
Theorem mapErr_contract :
  forall (W T E F : Type) (render : ToString W F)
         (f : E -> Comp W F) (v : T) (e : E) (w : W),
    Result.mapErr (T:=T) (Err e) f w = (x <- f e ;; ret (Err x)) w
    /\ (r <- Result.mapErr (T:=T) (Err e) f ;; Maybe.unwrap (Result.err r)) w = f e w
    /\ Result.mapErr (Ok v) f w = (Return (Ok v), w)
    /\ (r <- Result.mapErr (Ok v) f ;; Result.unwrap r) w = (Return v, w)
    /\ (forall (g : E -> F) (calls : nat),
          Result.mapErr (T:=T) (Err e) (counting g) calls
          = (Return (Err (g e)), S calls)
          /\ snd (Result.mapErr (Ok v) (counting g) calls) = calls).
Proof.
  intros W T E F render f v e w.
  repeat split; try reflexivity.
  simpl. unfold bind, ret. destruct (f e w) as [[x|x] w']; reflexivity.
Qed.

(** ** [contains] *)

(** C7.  [Result.contains] tests the channel that the receiver's variant
    selects: [Ok(v).contains(x)] is [v === x] and [Err(e).contains(x)] is
    [e === x].  Where [===] decides equality of the payloads (strings,
    booleans, object references), [contains] is true iff the candidate
    equals the payload.  On numbers, [Err(42).contains(42)] is true and
    [Err(42).contains(7)] is false. *)
Theorem Result_contains_channel :
  forall (T E : Type) (eqT : StrictEq T) (eqE : StrictEq E)
         (v x : T) (e y : E),
    Result.contains (E:=E) (Ok v) x = strict_eq v x
    /\ Result.contains (T:=T) (Err e) y = strict_eq e y
    /\ ((forall a b : T, strict_eq a b = true <-> a = b) ->
        (Result.contains (E:=E) (Ok v) x = true <-> x = v))
    /\ ((forall a b : E, strict_eq a b = true <-> a = b) ->
        (Result.contains (T:=T) (Err e) y = true <-> y = e))
    /\ Result.contains (T:=T) (Err 42%float) 42%float = true
    /\ Result.contains (T:=T) (Err 42%float) 7%float = false.
Proof.
  intros T E eqT eqE v x e y.
  split; [reflexivity|]. split; [reflexivity|].
  split; [|split; [|split; reflexivity]].
  - intros HeqT. simpl. rewrite HeqT. split; congruence.
  - intros HeqE. simpl. rewrite HeqE. split; congruence.
Qed.

Lemma Result_contains_channel_witness :
  (Result.contains (E:=string) (Ok "foo") "foo" = true <-> "foo" = "foo")
  /\ (Result.contains (T:=string) (Err "haz error") "baz" = true <-> "baz" = "haz error").
Proof.
  destruct (Result_contains_channel string string _ _ "foo" "foo" "haz error" "baz")
    as (_ & _ & Hok & Herr & _).
  split.
  - apply Hok. exact String.eqb_eq.
  - apply Herr. exact String.eqb_eq.
Defined.

(** The IEEE comparison finds two doubles equal in either order. *)
Lemma SFcompare_Eq_sym :
  forall a b : spec_float, SFcompare a b = Datatypes.Some Eq -> SFcompare b a = Datatypes.Some Eq.
Proof.
  intros [sa|sa| |sa ma ea] [sb|sb| |sb mb eb]; simpl;
    try discriminate; try reflexivity;
    try (destruct sa, sb; simpl; try discriminate; reflexivity);
    try (destruct sa; discriminate); try (destruct sb; discriminate).
  change (Pos.compare_cont Eq ma mb) with (Pos.compare ma mb).
  change (Pos.compare_cont Eq mb ma) with (Pos.compare mb ma).
  rewrite (Z.compare_antisym ea eb), (Pos.compare_antisym ma mb).
  destruct sa, sb; try discriminate;
    destruct (Z.compare ea eb); simpl; try discriminate;
    destruct (Pos.compare ma mb); simpl; try discriminate; reflexivity.
Qed.

Lemma number_strict_eq_sym :
  forall x y : float, strict_eq x y = strict_eq y x.
Proof.
  intros x y. unfold strict_eq, number_StrictEq.
  rewrite !eqb_spec. unfold SFeqb.
  destruct (SFcompare (Prim2SF x) (Prim2SF y)) as [[]|] eqn:Hxy;
    destruct (SFcompare (Prim2SF y) (Prim2SF x)) as [[]|] eqn:Hyx;
    try reflexivity;
    try (apply SFcompare_Eq_sym in Hxy; congruence);
    try (apply SFcompare_Eq_sym in Hyx; congruence).
Qed.

(** [===] on untyped values does not depend on the order of its operands. *)
Lemma js_strict_eq_sym :
  forall u v : JsValue, js_strict_eq u v = js_strict_eq v u.
Proof.
  intros [ | | a | a | a | a] [ | | b | b | b | b]; simpl; try reflexivity.
  - now destruct a, b.
  - apply number_strict_eq_sym.
  - apply String.eqb_sym.
  - apply Nat.eqb_sym.
Qed.

(** [===] on untyped values: a value is strict-equal to itself unless it
    is the number [NaN]. *)
Lemma js_strict_eq_self :
  forall u : JsValue,
    js_strict_eq u u = match u with JsNumber x => negb (is_nan x) | _ => true end.
Proof.
  intros [ | | b | x | s | ref]; simpl; try reflexivity.
  - apply Bool.eqb_reflx.
  - unfold is_nan. now rewrite Bool.negb_involutive.
  - apply String.eqb_refl.
  - apply Nat.eqb_refl.
Qed.

(** C10.  [contains] compares with the host's [===], not structurally:
    [Some(v).contains(x)] is [v === x] (and likewise for [Ok]), so two
    distinct objects are told apart even when they are structurally equal,
    an object reference is found exactly by itself, and
    [Some(v).contains(v)] holds for every [v] that is strict-equal to
    itself (every untyped value but [NaN]).  [None().contains(x)] is false
    for every candidate. *)
Theorem contains_is_strict_equality :
  forall (T E : Type) (eqT : StrictEq T) (eqE : StrictEq E) (v x : T),
    Maybe.contains (Some v) x = strict_eq v x
    /\ Result.contains (E:=E) (Ok v) x = strict_eq v x
    /\ Maybe.contains None x = false
    /\ (strict_eq v v = true -> Maybe.contains (Some v) v = true)
    /\ (structurally_equal 1 twin_objects (JsObject 0) (JsObject 1) = true
        /\ Maybe.contains (Some (JsObject 0)) (JsObject 1) = false)
    /\ (forall a b : nat,
          Maybe.contains (Some (JsObject a)) (JsObject b) = true <-> a = b)
    /\ (forall u c : JsValue, Maybe.contains (Some u) c = js_strict_eq c u)
    /\ (forall u : JsValue,
          Maybe.contains (Some u) u
          = match u with JsNumber n => negb (is_nan n) | _ => true end)
    /\ Maybe.contains (Some (JsNumber nan)) (JsNumber nan) = false.
Proof.
  intros T E eqT eqE v x.
  repeat split; try reflexivity; simpl.
  - intros Hself. exact Hself.
  - apply Nat.eqb_eq.
  - apply Nat.eqb_eq.
  - intros u c. apply js_strict_eq_sym.
  - intros u. apply js_strict_eq_self.
Qed.

Lemma contains_is_strict_equality_witness :
  Maybe.contains (Some "foo") "foo" = true.
Proof.
  destruct (contains_is_strict_equality string string _ _ "foo" "bar")
    as (_ & _ & _ & Hself & _).
  apply Hself. reflexivity.
Defined.

(** ** The helper constructors *)

(** C8.  Each family has a free helper that builds the non-empty variant
    from a value and a free helper that builds the empty one: for every
    [v], [some(v)] is [new Some(v)] and [ok(v)] is [new Ok(v)]; [none()] is
    [new None()]; for every [e], [err(e)] is [new Err(e)].  As the tests
    observe them: [some(v)] is a [Some] that unwraps to [v], [none()] is a
    [None], [ok(v)] is an [Ok] that unwraps to [v], and [err(e)] is an
    [Err] whose error is [e]. *)
Theorem helper_constructors :
  forall (W T E : Type) (render : ToString W E) (v : T) (e : E) (w : W),
    Index.some v = Some v
    /\ Index.none = @None T
    /\ Index.ok (E:=E) v = Ok v
    /\ Index.err (T:=T) e = Err e
    /\ (isSome (Index.some v) = true /\ Maybe.unwrap (Index.some v) w = (Return v, w))
    /\ isNone (@Index.none T) = true
    /\ (isOk (Index.ok (E:=E) v) = true
        /\ Result.unwrap (Index.ok (E:=E) v) w = (Return v, w))
    /\ (isErr (Index.err (T:=T) e) = true
        /\ Result.err (Index.err (T:=T) e) = Some e).
Proof.
  intros W T E render v e w.
  repeat split; reflexivity.
Qed.

(** ** The discriminators and [match] *)

(** The tag decides the discriminator: a [Some] passes [isSome], a [None]
    does not. *)
Lemma isSome_variant :
  forall (T : Type) (this : Maybe T),
    isSome this = match this with Some _ => true | None => false end.
Proof. intros T [v|]; reflexivity. Qed.

Lemma isOk_variant :
  forall (T E : Type) (this : Result T E),
    isOk this = match this with Ok _ => true | Err _ => false end.
Proof. intros T E [v|e]; reflexivity. Qed.

(** [match] on a [Result] applies the handler of the receiver's variant. *)
Lemma Result_match_dispatch :
  forall (W T E R : Type) (this : Result T E) (matcher : ResultMatcher W T E R),
    Result.match_ this matcher
    = match this with
      | Ok v => r <- matcher_Ok matcher v ;; ret (Defined r)
      | Err e => r <- matcher_Err matcher e ;; ret (Defined r)
      end.
Proof. intros W T E R [v|e] matcher; reflexivity. Qed.

(** C9.  For every [Maybe], [isNone()] is the negation of [isSome()], and
    for every [Result], [isErr()] is the negation of [isOk()]; so exactly
    one discriminator is true of any instance.  [match] dispatches to
    exactly one of its two handlers, the one of the receiver's variant,
    called once; and [Result.match] never runs off its end: it does not
    return [undefined] by fall-through. *)
Theorem discriminators_complementary :
  forall (W T E R : Type) (m : Maybe T) (r : Result T E)
         (mm : MaybeMatcher W T R) (rm : ResultMatcher W T E R) (w : W),
    isNone m = negb (isSome m)
    /\ isErr r = negb (isOk r)
    /\ isSome m = match m with Some _ => true | None => false end
    /\ isOk r = match r with Ok _ => true | Err _ => false end
    /\ xorb (isSome m) (isNone m) = true
    /\ xorb (isOk r) (isErr r) = true
    /\ Maybe.match_ m mm
       = match m with
         | Some v => matcher_Some mm v
         | None => matcher_None mm tt
         end
    /\ Result.match_ r rm
       = match r with
         | Ok v => x <- matcher_Ok rm v ;; ret (Defined x)
         | Err e => x <- matcher_Err rm e ;; ret (Defined x)
         end
    /\ (forall log : list string,
          snd (Maybe.match_ m logging_MaybeMatcher log) = Maybe.__tag m :: log
          /\ snd (Result.match_ r logging_ResultMatcher log) = Result.__tag r :: log)
    /\ fst (Result.match_ r rm w) <> Return Undefined.
Proof.
  intros W T E R m r mm rm w.
  repeat split; try reflexivity.
  - apply isSome_variant.
  - apply isOk_variant.
  - unfold isNone. now destruct (isSome m).
  - unfold isErr. now destruct (isOk r).
  - destruct m; reflexivity.
  - apply Result_match_dispatch.
  - destruct m; reflexivity.
  - destruct r; reflexivity.
  - rewrite Result_match_dispatch.
    destruct r as [v|e]; unfold bind, ret.
    + destruct (matcher_Ok rm v w) as [[x|x] w']; simpl; discriminate.
    + destruct (matcher_Err rm e w) as [[x|x] w']; simpl; discriminate.
Qed.

(** ** Beyond the claims: how the methods relate *)

(** Unfolds the monad far enough for a run to compute. *)
Ltac unfold_run := simpl; unfold bind, ret, throw; simpl.

(** Runs the callbacks met in the goal, innermost call first: each call
    either returns or throws, and a call met again ends as it did before. *)
Ltac run_callbacks :=
  unfold_run;
  repeat (first
    [ match goal with
      | H : ?c = (_, _) |- context [match ?c with pair _ _ => _ end] => rewrite H
      end
    | match goal with
      | |- context [match ?c with pair _ _ => _ end] =>
          lazymatch c with
          | context [match _ with pair _ _ => _ end] => fail
          | _ => destruct c as [[?|?] ?] eqn:?
          end
      end ];
    unfold_run).

(** X1.  [Maybe.unwrap] is decided by [isSome]: where the test holds it
    returns what [unwrapOr] returns for any default, where it fails it
    throws the "Unwrap called on None value" error; the world is left
    alone either way. *)
Theorem Maybe_unwrap_by_variant :
  forall (W T : Type) (m : Maybe T) (d : T) (w : W),
    Maybe.unwrap m w
    = if isSome m
      then (Return (Maybe.unwrapOr m d), w)
      else (Throw (Error "Unwrap called on None value"), w).
Proof.
  intros W T [v|] d w; reflexivity.
Qed.

(** X2.  [Result.unwrap] returns exactly when [isOk] holds, and then it
    returns what [unwrapOr] returns for any default, leaving the world
    alone. *)
Theorem Result_unwrap_by_variant :
  forall (W T E : Type) (render : ToString W E) (r : Result T E) (d : T) (w : W),
    ((exists v w', Result.unwrap r w = (Return v, w')) <-> isOk r = true)
    /\ (isOk r = true -> Result.unwrap r w = (Return (Result.unwrapOr r d), w)).
Proof.
  intros W T E render [v|e] d w; split.
  - split; [reflexivity|]. intros _. exists v, w. reflexivity.
  - reflexivity.
  - split; [|discriminate].
    intros (v & w' & Hreturn). exfalso. revert Hreturn.
    unfold Result.unwrap. run_callbacks; discriminate.
  - discriminate.
Qed.

Lemma Result_unwrap_by_variant_witness :
  Result.unwrap (W:=unit) (E:=string) (Ok 42) tt
  = (Return (Result.unwrapOr (E:=string) (Ok 42) 117), tt).
Proof.
  apply (Result_unwrap_by_variant unit nat string _ (Ok 42) 117 tt).
  reflexivity.
Defined.

(** X3.  [unwrapOr] is the [match] whose handlers return the payload and the
    default: for both families, matching with those two handlers returns
    what [unwrapOr] returns. *)
Theorem unwrapOr_is_match :
  forall (W T E : Type) (m : Maybe T) (r : Result T E) (d : T) (w : W),
    Maybe.match_ m {| matcher_Some := fun v => ret v;
                      matcher_None := fun _ => ret d |} w
    = (Return (Maybe.unwrapOr m d), w)
    /\ Result.match_ r {| matcher_Ok := fun v => ret v;
                          matcher_Err := fun _ => ret d |} w
       = (Return (Defined (Result.unwrapOr r d)), w).
Proof.
  intros W T E [v|] [v'|e] d w; split; reflexivity.
Qed.

(** X4.  Mapping the identity changes nothing: [map] with the function
    that returns its argument gives back the receiver, in both families,
    and so does [mapErr]. *)
Theorem map_identity :
  forall (W T E : Type) (m : Maybe T) (r : Result T E) (w : W),
    Maybe.map m (fun x => ret x) w = (Return m, w)
    /\ Result.map r (fun x => ret x) w = (Return r, w)
    /\ Result.mapErr r (fun x => ret x) w = (Return r, w).
Proof.
  intros W T E [v|] [v'|e] w; repeat split; reflexivity.
Qed.

(** X5.  Mapping twice is mapping once with the composed callback: [f] runs
    first, [g] runs on what [f] returned, and a throw from [f] stops
    both.  This holds for [map] in both families and for [mapErr]. *)
Theorem map_composition :
  forall (W T U V E F G : Type)
         (f : T -> Comp W U) (g : U -> Comp W V)
         (h : E -> Comp W F) (k : F -> Comp W G)
         (m : Maybe T) (r : Result T E) (w : W),
    (m' <- Maybe.map m f ;; Maybe.map m' g) w
    = Maybe.map m (fun x => y <- f x ;; g y) w
    /\ (r' <- Result.map r f ;; Result.map r' g) w
       = Result.map r (fun x => y <- f x ;; g y) w
    /\ (r' <- Result.mapErr r h ;; Result.mapErr r' k) w
       = Result.mapErr r (fun x => y <- h x ;; k y) w.
Proof.
  intros W T U V E F G f g h k [v|] [v'|e] w; repeat split;
    run_callbacks; reflexivity.
Qed.

(** X6.  Right identity: [flatMap] with the constructor of the non-empty
    variant gives back the receiver, in both families. *)
Theorem flatMap_right_identity :
  forall (W T E : Type) (m : Maybe T) (r : Result T E) (w : W),
    Maybe.flatMap m (fun x => ret (Some x)) w = (Return m, w)
    /\ Result.flatMap r (fun x => ret (Ok x)) w = (Return r, w).
Proof.
  intros W T E [v|] [v'|e] w; split; reflexivity.
Qed.

(** X7.  Associativity: chaining two [flatMap] calls is one [flatMap] with
    the chained callback, in both families. *)
Theorem flatMap_associative :
  forall (W T U V E : Type)
         (f : T -> Comp W (Maybe U)) (g : U -> Comp W (Maybe V))
         (h : T -> Comp W (Result U E)) (k : U -> Comp W (Result V E))
         (m : Maybe T) (r : Result T E) (w : W),
    (m' <- Maybe.flatMap m f ;; Maybe.flatMap m' g) w
    = Maybe.flatMap m (fun x => m' <- f x ;; Maybe.flatMap m' g) w
    /\ (r' <- Result.flatMap r h ;; Result.flatMap r' k) w
       = Result.flatMap r (fun x => r' <- h x ;; Result.flatMap r' k) w.
Proof.
  intros W T U V E f g h k [v|] [v'|e] w; split; reflexivity.
Qed.

(** X8.  [mapOr] is [map] followed by [unwrapOr]: unwrapping the result of
    [mapOr] gives what [unwrapOr] with the same default gives on the result
    of [map].  So the [unwrap] after a [mapOr] never throws of its own:
    the only failure is one thrown by the callback. *)
Theorem mapOr_is_map_then_unwrapOr :
  forall (W T U E : Type) (render : ToString W E)
         (f : T -> Comp W U) (d : U)
         (m : Maybe T) (r : Result T E) (w : W),
    (m' <- Maybe.mapOr m f d ;; Maybe.unwrap m') w
    = (m' <- Maybe.map m f ;; ret (Maybe.unwrapOr m' d)) w
    /\ (r' <- Result.mapOr r f d ;; Result.unwrap r') w
       = (r' <- Result.map r f ;; ret (Result.unwrapOr r' d)) w.
Proof.
  intros W T U E render f d [v|] [v'|e] w; split;
    run_callbacks; reflexivity.
Qed.

(** X9.  [map] and [mapErr] work on separate channels and commute: mapping
    the value and then the error is mapping the error and then the
    value. *)
Theorem map_mapErr_commute :
  forall (W T U E F : Type) (f : T -> Comp W U) (g : E -> Comp W F)
         (r : Result T E) (w : W),
    (r' <- Result.map r f ;; Result.mapErr r' g) w
    = (r' <- Result.mapErr r g ;; Result.map r' f) w.
Proof.
  intros W T U E F f g [v|e] w; run_callbacks; reflexivity.
Qed.

(** X10.  The conversions to [Maybe] commute with the combinators: the
    [ok()] view of [r.map(f)] is the [ok()] view of [r] mapped by [f], the
    [err()] view of [r.mapErr(g)] is the [err()] view of [r] mapped by [g],
    and the [ok()] view of [r.flatMap(k)] is the [ok()] view of [r]
    flat-mapped by [k] followed by [ok()]. *)
Theorem ok_err_natural :
  forall (W T U E F : Type)
         (f : T -> Comp W U) (g : E -> Comp W F) (k : T -> Comp W (Result U E))
         (r : Result T E) (w : W),
    (r' <- Result.map r f ;; ret (Result.ok r')) w = Maybe.map (Result.ok r) f w
    /\ (r' <- Result.mapErr r g ;; ret (Result.err r')) w
       = Maybe.map (Result.err r) g w
    /\ (r' <- Result.flatMap r k ;; ret (Result.ok r')) w
       = Maybe.flatMap (Result.ok r) (fun x => r' <- k x ;; ret (Result.ok r')) w.
Proof.
  intros W T U E F f g k [v|e] w; repeat split; run_callbacks; reflexivity.
Qed.

(** X11.  The two views of a [Result] split it: [ok()] is a [Some] exactly
    when the receiver [isOk], [err()] is a [Some] exactly when it [isErr],
    so exactly one of the two views is a [Some]; and [unwrapOr] on the
    [Result] is [unwrapOr] on its [ok()] view. *)
Theorem ok_err_discriminate :
  forall (T E : Type) (r : Result T E) (d : T),
    isSome (Result.ok r) = isOk r
    /\ isSome (Result.err r) = isErr r
    /\ xorb (isSome (Result.ok r)) (isSome (Result.err r)) = true
    /\ Result.unwrapOr r d = Maybe.unwrapOr (Result.ok r) d.
Proof.
  intros T E [v|e] d; repeat split; reflexivity.
Qed.

(** X12.  The combinators add no failure of their own: when the callbacks
    always return, [map], [mapOr], [flatMap] and [mapErr] return, on every
    receiver and from every world. *)
Theorem combinators_return :
  forall (W T U E F : Type)
         (f : T -> Comp W U) (km : T -> Comp W (Maybe U))
         (kr : T -> Comp W (Result U E)) (g : E -> Comp W F) (d : U),
    (forall x w, exists u w', f x w = (Return u, w')) ->
    (forall x w, exists u w', km x w = (Return u, w')) ->
    (forall x w, exists u w', kr x w = (Return u, w')) ->
    (forall x w, exists u w', g x w = (Return u, w')) ->
    forall (m : Maybe T) (r : Result T E) (w : W),
      (exists m' w', Maybe.map m f w = (Return m', w'))
      /\ (exists m' w', Maybe.mapOr m f d w = (Return m', w'))
      /\ (exists m' w', Maybe.flatMap m km w = (Return m', w'))
      /\ (exists r' w', Result.map r f w = (Return r', w'))
      /\ (exists r' w', Result.mapOr r f d w = (Return r', w'))
      /\ (exists r' w', Result.flatMap r kr w = (Return r', w'))
      /\ (exists r' w', Result.mapErr r g w = (Return r', w')).
Proof.
  intros W T U E F f km kr g d Hf Hkm Hkr Hg m r w.
  repeat split.
  - destruct m as [v|]; simpl; [|eexists; eexists; reflexivity].
    destruct (Hf v w) as (u & w' & Hfv).
    exists (Some u), w'. now rewrite (bind_returns _ _ _ _ _ Hfv).
  - destruct m as [v|]; simpl; [|eexists; eexists; reflexivity].
    destruct (Hf v w) as (u & w' & Hfv).
    exists (Some u), w'. now rewrite (bind_returns _ _ _ _ _ Hfv).
  - destruct m as [v|]; simpl; [apply Hkm|eexists; eexists; reflexivity].
  - destruct r as [v|e]; simpl; [|eexists; eexists; reflexivity].
    destruct (Hf v w) as (u & w' & Hfv).
    exists (Ok u), w'. now rewrite (bind_returns _ _ _ _ _ Hfv).
  - destruct r as [v|e]; simpl; [|eexists; eexists; reflexivity].
    destruct (Hf v w) as (u & w' & Hfv).
    exists (Ok u), w'. now rewrite (bind_returns _ _ _ _ _ Hfv).
  - destruct r as [v|e]; simpl; [apply Hkr|eexists; eexists; reflexivity].
  - destruct r as [v|e]; simpl; [eexists; eexists; reflexivity|].
    destruct (Hg e w) as (u & w' & Hge).
    exists (Err u), w'. now rewrite (bind_returns _ _ _ _ _ Hge).
Qed.

Lemma combinators_return_witness :
  (exists m' w', Maybe.map (W:=unit) (Some 2) (fun x => ret (x * 2)) tt = (Return m', w'))
  /\ (exists r' w',
        Result.mapErr (W:=unit) (T:=nat) (Err "e") (fun s => ret (String.length s)) tt
        = (Return r', w')).
Proof.
  destruct (combinators_return unit nat nat string nat
              (fun x => ret (x * 2)) (fun x => ret (Some x))
              (fun x => ret (Ok x)) (fun s => ret (String.length s)) 0
              (fun x w => ex_intro _ _ (ex_intro _ w eq_refl))
              (fun x w => ex_intro _ _ (ex_intro _ w eq_refl))
              (fun x w => ex_intro _ _ (ex_intro _ w eq_refl))
              (fun x w => ex_intro _ _ (ex_intro _ w eq_refl))
              (Some 2) (Err "e") tt)
    as (Hmap & _ & _ & _ & _ & _ & HmapErr).
  split; assumption.
Defined.

(** X13.  A failure of a combinator is a failure of its callback: when
    [map], [mapOr], [flatMap] or [mapErr] throws, the receiver is the
    variant the callback applies to, and the callback, run on the payload
    from the same world, threw that very exception. *)
Theorem throw_comes_from_callback :
  forall (W T U E F : Type)
         (f : T -> Comp W U) (km : T -> Comp W (Maybe U))
         (kr : T -> Comp W (Result U E)) (g : E -> Comp W F) (d : U)
         (m : Maybe T) (r : Result T E) (w w' : W) (x : Exception),
    (Maybe.map m f w = (Throw x, w') ->
       exists v, m = Some v /\ f v w = (Throw x, w'))
    /\ (Maybe.mapOr m f d w = (Throw x, w') ->
          exists v, m = Some v /\ f v w = (Throw x, w'))
    /\ (Maybe.flatMap m km w = (Throw x, w') ->
          exists v, m = Some v /\ km v w = (Throw x, w'))
    /\ (Result.map r f w = (Throw x, w') ->
          exists v, r = Ok v /\ f v w = (Throw x, w'))
    /\ (Result.mapOr r f d w = (Throw x, w') ->
          exists v, r = Ok v /\ f v w = (Throw x, w'))
    /\ (Result.flatMap r kr w = (Throw x, w') ->
          exists v, r = Ok v /\ kr v w = (Throw x, w'))
    /\ (Result.mapErr r g w = (Throw x, w') ->
          exists e, r = Err e /\ g e w = (Throw x, w')).
Proof.
  intros W T U E F f km kr g d m r w w' x.
  assert (Hbind : forall (A B : Type) (c : Comp W A) (wrap : A -> B),
             (u <- c ;; ret (wrap u)) w = (Throw x, w') -> c w = (Throw x, w')).
  { intros A B c wrap. unfold bind, ret.
    destruct (c w) as [[u|y] w1]; [discriminate|].
    intros Hthrow. inversion Hthrow. reflexivity. }
  split; [|split; [|split; [|split; [|split; [|split]]]]].
  - destruct m as [v|]; simpl; [|discriminate].
    intros Hthrow. exists v. split; [reflexivity|].
    exact (Hbind _ _ _ _ Hthrow).
  - destruct m as [v|]; simpl; [|discriminate].
    intros Hthrow. exists v. split; [reflexivity|].
    exact (Hbind _ _ _ _ Hthrow).
  - destruct m as [v|]; simpl; [|discriminate].
    intros Hthrow. exists v. split; [reflexivity|exact Hthrow].
  - destruct r as [v|e]; simpl; [|discriminate].
    intros Hthrow. exists v. split; [reflexivity|].
    exact (Hbind _ _ _ _ Hthrow).
  - destruct r as [v|e]; simpl; [|discriminate].
    intros Hthrow. exists v. split; [reflexivity|].
    exact (Hbind _ _ _ _ Hthrow).
  - destruct r as [v|e]; simpl; [|discriminate].
    intros Hthrow. exists v. split; [reflexivity|exact Hthrow].
  - destruct r as [v|e]; simpl; [discriminate|].
    intros Hthrow. exists e. split; [reflexivity|].
    exact (Hbind _ _ _ _ Hthrow).
Qed.

Lemma throw_comes_from_callback_witness :
  exists v : nat,
    Some 2 = Some v
    /\ (fun _ : nat => throw (W:=unit) (A:=nat) TypeError) v tt = (Throw TypeError, tt).
Proof.
  destruct (throw_comes_from_callback unit nat nat string nat
              (fun _ => throw TypeError) (fun _ => throw TypeError)
              (fun _ => throw TypeError) (fun _ => throw TypeError) 0
              (Some 2) (Err "e") tt tt TypeError)
    as (Hmap & _).
  exact (Hmap eq_refl).
Defined.

(** X14.  Each combinator calls its callback exactly once on the variant
    it applies to and not at all on the other: a call-counting stub gains
    one call under [map], [mapOr] and [flatMap] when the receiver
    [isSome]/[isOk], under [mapErr] when it [isErr], and none otherwise. *)
Theorem callback_call_counts :
  forall (T U E F : Type) (g : T -> U) (km : T -> Maybe U)
         (kr : T -> Result U E) (h : E -> F) (d : U)
         (m : Maybe T) (r : Result T E) (calls : nat),
    snd (Maybe.map m (counting g) calls) = calls + (if isSome m then 1 else 0)
    /\ snd (Maybe.mapOr m (counting g) d calls) = calls + (if isSome m then 1 else 0)
    /\ snd (Maybe.flatMap m (counting km) calls) = calls + (if isSome m then 1 else 0)
    /\ snd (Result.map r (counting g) calls) = calls + (if isOk r then 1 else 0)
    /\ snd (Result.mapOr r (counting g) d calls) = calls + (if isOk r then 1 else 0)
    /\ snd (Result.flatMap r (counting kr) calls) = calls + (if isOk r then 1 else 0)
    /\ snd (Result.mapErr r (counting h) calls) = calls + (if isErr r then 1 else 0).
Proof.
  intros T U E F g km kr h d [v|] [v'|e] calls; repeat split; simpl;
    first [apply eq_sym, Nat.add_1_r | apply eq_sym, Nat.add_0_r].
Qed.

(** X15.  [map] keeps the variant and the other channel: a result that
    [Maybe.map] returns [isSome] exactly when the receiver does; a result
    that [Result.map] returns has the receiver's [isOk] and the receiver's
    [err()] view; a result that [mapErr] returns has the receiver's [isOk]
    and the receiver's [ok()] view. *)
Theorem map_keeps_variant :
  forall (W T U E F : Type) (f : T -> Comp W U) (g : E -> Comp W F)
         (m : Maybe T) (m' : Maybe U)
         (r : Result T E) (r1 : Result U E) (r2 : Result T F) (w w0 w1 w2 : W),
    Maybe.map m f w = (Return m', w0) ->
    Result.map r f w = (Return r1, w1) ->
    Result.mapErr r g w = (Return r2, w2) ->
    isSome m' = isSome m
    /\ (isOk r1 = isOk r /\ Result.err r1 = Result.err r)
    /\ (isOk r2 = isOk r /\ Result.ok r2 = Result.ok r).
Proof.
  intros W T U E F f g m m' r r1 r2 w w0 w1 w2 Hm Hr1 Hr2.
  split; [|split].
  - destruct m as [v|]; revert Hm; run_callbacks; intros Hm;
      inversion Hm; reflexivity.
  - destruct r as [v|e]; revert Hr1; clear Hr2; run_callbacks; intros Hr1;
      inversion Hr1; split; reflexivity.
  - destruct r as [v|e]; revert Hr2; clear Hr1; run_callbacks; intros Hr2;
      inversion Hr2; split; reflexivity.
Qed.

Lemma map_keeps_variant_witness :
  isSome (Some 4) = isSome (Some 2)
  /\ (isOk (@Err nat string "e") = isOk (@Err nat string "e")
      /\ Result.err (@Err nat string "e") = Result.err (@Err nat string "e"))
  /\ (isOk (@Err nat nat 1) = isOk (@Err nat string "e")
      /\ Result.ok (@Err nat nat 1) = Result.ok (@Err nat string "e")).
Proof.
  exact (map_keeps_variant unit nat nat string nat
           (fun x => ret (x * 2)) (fun s => ret (String.length s))
           (Some 2) (Some 4) (Err "e") (Err "e") (Err 1) tt tt tt tt
           eq_refl eq_refl eq_refl).
Defined.

(** X16.  [flatMap] cannot create presence: when the result it returns is
    a [Some] (an [Ok]), the receiver was a [Some] (an [Ok]). *)
Theorem flatMap_needs_presence :
  forall (W T U E : Type) (km : T -> Comp W (Maybe U))
         (kr : T -> Comp W (Result U E))
         (m : Maybe T) (m' : Maybe U) (r : Result T E) (r' : Result U E)
         (w w0 w1 : W),
    Maybe.flatMap m km w = (Return m', w0) ->
    Result.flatMap r kr w = (Return r', w1) ->
    (isSome m' = true -> isSome m = true)
    /\ (isOk r' = true -> isOk r = true).
Proof.
  intros W T U E km kr [v|] m' [v'|e] r' w w0 w1; simpl; unfold ret;
    intros Hm Hr; inversion Hm; inversion Hr; subst; split; trivial.
Qed.

Lemma flatMap_needs_presence_witness :
  (isSome (@None nat) = true -> isSome (@None nat) = true)
  /\ (isOk (@Ok nat string 6) = true -> isOk (@Ok nat string 5) = true).
Proof.
  exact (flatMap_needs_presence unit nat nat string
           (fun x => ret (Some x)) (fun x => ret (Ok (x + 1)))
           None None (Ok 5) (Ok 6) tt tt tt eq_refl eq_refl).
Defined.

(** A chain of [map] calls that has reached [Ok(v)] goes on with the pure
    callbacks left, one after the other. *)
Lemma map_chain_pure_from :
  forall (W T E : Type) (fs : list (T -> T)) (acc : Comp W (Result T E))
         (v : T) (w w' : W),
    acc w = (Return (Ok v), w') ->
    fold_left (fun acc fn => r <- acc ;; Result.map r fn)
      (List.map (fun f x => ret (f x)) fs) acc w
    = (Return (Ok (fold_left (fun a f => f a) fs v)), w').
Proof.
  induction fs as [|f fs IH]; intros acc v w w' Hacc; simpl.
  - exact Hacc.
  - apply IH. now rewrite (bind_returns _ _ _ _ _ Hacc).
Qed.

(** A chain of counted [map] calls that has reached [Ok(v)] counts one call
    for each callback left. *)
Lemma map_chain_counting_from :
  forall (T E : Type) (fs : list (T -> T)) (acc : Comp nat (Result T E))
         (v : T) (calls n : nat),
    acc calls = (Return (Ok v), n) ->
    snd (fold_left (fun acc fn => r <- acc ;; Result.map r fn)
           (List.map counting fs) acc calls)
    = n + length fs.
Proof.
  induction fs as [|f fs IH]; intros acc v calls n Hacc; simpl.
  - rewrite Hacc. simpl. now rewrite Nat.add_0_r.
  - rewrite (IH _ (f v) calls (S n)).
    + now rewrite Nat.add_succ_r.
    + now rewrite (bind_returns _ _ _ _ _ Hacc).
Qed.

(** X17.  A chain of [map] calls on [Ok(v)] with callbacks that return is
    [Ok] of the callbacks applied to [v] in order, and it calls each
    callback once: counting stubs gain as many calls as the chain is
    long. *)
Theorem map_chain_on_Ok :
  forall (W T E : Type) (fs : list (T -> T)) (v : T) (w : W) (calls : nat),
    Result.map_chain (E:=E) (Ok v) (List.map (fun f x => ret (f x)) fs) w
    = (Return (Ok (fold_left (fun a f => f a) fs v)), w)
    /\ snd (Result.map_chain (E:=E) (Ok v) (List.map counting fs) calls)
       = calls + length fs.
Proof.
  intros W T E fs v w calls. unfold Result.map_chain. split.
  - now apply map_chain_pure_from.
  - now apply map_chain_counting_from with (v := v).
Qed.

(** X18.  Only a [Some] contains anything: when [contains] answers true,
    [unwrap] returns a payload that is strict-equal to the candidate; and
    on a receiver that [isNone], [contains] answers false for every
    candidate. *)
Theorem contains_needs_payload :
  forall (W T : Type) (eqT : StrictEq T) (m : Maybe T) (x : T) (w : W),
    (Maybe.contains m x = true ->
       exists v, Maybe.unwrap m w = (Return v, w) /\ strict_eq v x = true)
    /\ (isNone m = true -> Maybe.contains m x = false).
Proof.
  intros W T eqT [v|] x w; simpl; split; try discriminate.
  - intros Hcontains. exists v. split; [reflexivity|exact Hcontains].
  - reflexivity.
Qed.

Lemma contains_needs_payload_witness :
  exists v : string,
    Maybe.unwrap (W:=unit) (Some "foo") tt = (Return v, tt)
    /\ strict_eq v "foo" = true.
Proof.
  destruct (contains_needs_payload unit string _ (Some "foo") "foo" tt)
    as (Hcontains & _).
  exact (Hcontains eq_refl).
Defined.

(** X19.  Matching after mapping is matching once: [m.map(f).match(h)]
    runs [f] and then the [Some] handler on what [f] returned, or the
    [None] handler alone; [r.map(f).match(h)] likewise with the [Ok] and
    [Err] handlers, the [Err] handler getting the original error. *)
Theorem match_after_map :
  forall (W T U E R : Type) (f : T -> Comp W U)
         (mm : MaybeMatcher W U R) (rm : ResultMatcher W U E R)
         (m : Maybe T) (r : Result T E) (w : W),
    (m' <- Maybe.map m f ;; Maybe.match_ m' mm) w
    = Maybe.match_ m {| matcher_Some := fun v => u <- f v ;; matcher_Some mm u;
                        matcher_None := matcher_None mm |} w
    /\ (r' <- Result.map r f ;; Result.match_ r' rm) w
       = Result.match_ r {| matcher_Ok := fun v => u <- f v ;; matcher_Ok rm u;
                            matcher_Err := matcher_Err rm |} w.
Proof.
  intros W T U E R f mm rm [v|] [v'|e] w; split;
    unfold Maybe.match_, Result.match_; run_callbacks; reflexivity.
Qed.

(** X20.  On a non-empty receiver the default plays no part: where the
    receiver [isSome] (or [isOk]), [mapOr] with any default is [map], and
    [unwrapOr] with any default is the same payload. *)
Theorem default_ignored_on_presence :
  forall (W T U E : Type) (f : T -> Comp W U) (d : U) (t t' : T)
         (m : Maybe T) (r : Result T E) (w : W),
    isSome m = true ->
    isOk r = true ->
    Maybe.mapOr m f d w = Maybe.map m f w
    /\ Result.mapOr r f d w = Result.map r f w
    /\ Maybe.unwrapOr m t = Maybe.unwrapOr m t'
    /\ Result.unwrapOr r t = Result.unwrapOr r t'.
Proof.
  intros W T U E f d t t' [v|] [v'|e] w Hsome Hok;
    try discriminate Hsome; try discriminate Hok.
  repeat split; reflexivity.
Qed.

Lemma default_ignored_on_presence_witness :
  Maybe.mapOr (W:=unit) (Some 4) (fun x => ret (x * 2)) 10 tt
  = Maybe.map (Some 4) (fun x => ret (x * 2)) tt
  /\ Result.mapOr (W:=unit) (E:=string) (Ok 4) (fun x => ret (x * 2)) 10 tt
     = Result.map (Ok 4) (fun x => ret (x * 2)) tt
  /\ Maybe.unwrapOr (Some 4) 117 = Maybe.unwrapOr (Some 4) 0
  /\ Result.unwrapOr (E:=string) (Ok 4) 117 = Result.unwrapOr (E:=string) (Ok 4) 0.
Proof.
  exact (default_ignored_on_presence unit nat nat string
           (fun x => ret (x * 2)) 10 117 0 (Some 4) (Ok 4) tt eq_refl eq_refl).
Defined.
